(** * Evidence retrieval store of the audience-insight assistant

    A shallow embedding of [data/vector_db_connector.py] (class [VectorDB]),
    [data/csv_connector.py] (class [CSVData]) and the evidence fusion step of
    [workflow/manager.py] ([WorkflowManager._fetch_relevant_data]) and
    [agents/agents.py] ([BaseAgent.get_relevant_data]), together with the
    agent routing ([_determine_agent_type]) and the recommendation parsing
    ([_generate_specific_recommendations]) of the workflow manager.

    Modelling conventions.
    - Python exceptions are the [Raise] branch of [outcome]; a [try/except]
      block is a [match] on it.
    - Embedding vectors are lists of integers ([list Z]); distances are
      computed exactly (float32 rounding is not modelled).
    - The sentence-transformer model is an [Embedder]: a declared dimension
      and a total encoding function.
    - FAISS [IndexFlatL2] is a record of its dimension and its stored vectors
      in insertion order; its serialisation ([write_index]/[read_index]) is
      faithful, so a written index file holds the index itself.
    - The directory [db_path] is a [Disk]: the four files the code reads, each
      absent, corrupt (loading raises) or valid, plus the fault the file system
      shows on the next save. *)

From Stdlib Require Import String Ascii.
From Stdlib Require Import List ZArith Lia Bool.
From Stdlib Require Import Permutation Sorting.Sorted.
Import ListNotations.
Open Scope string_scope.
Open Scope list_scope.

(** ** Python execution outcomes *)

Inductive exn : Type :=
| LoadError        (* torch.load / json.load / pickle.load / read_index failed *)
| AssertionError   (* faiss python wrapper: [assert d == self.d] *)
| RuntimeError     (* faiss C++ check, e.g. [k > 0] *)
| IndexError.      (* Python list index out of range *)

Inductive outcome (A : Type) : Type :=
| Ret (a : A)
| Raise (e : exn).
Arguments Ret {A} a.
Arguments Raise {A} e.

(** Python list subscription [l[i]], negative indices counting from the end. *)
Definition py_index {A} (l : list A) (i : Z) : option A :=
  if (0 <=? i)%Z then nth_error l (Z.to_nat i)
  else if (- Z.of_nat (length l) <=? i)%Z
       then nth_error l (Z.to_nat (Z.of_nat (length l) + i))
       else None.

(** ** FAISS [IndexFlatL2] *)

Module Faiss.

Record IndexFlatL2 : Type := mkIndex {
  d : nat;
  xb : list (list Z)
}.

Definition ntotal (ix : IndexFlatL2) : nat := length (xb ix).

(** [index.add(x)]: the wrapper asserts that the rows have the index
    dimension, then appends them. *)
Definition add (ix : IndexFlatL2) (x : list (list Z)) : outcome IndexFlatL2 :=
  if forallb (fun v => Nat.eqb (length v) (d ix)) x
  then Ret (mkIndex (d ix) (xb ix ++ x))
  else Raise AssertionError.

(** Squared Euclidean distance. *)
Fixpoint l2sq (a b : list Z) : Z :=
  match a, b with
  | x :: a', y :: b' => ((x - y) * (x - y) + l2sq a' b')%Z
  | _, _ => 0%Z
  end.

(** Result heap order: by distance, ties by smaller id. *)
Definition hit_le (p q : Z * nat) : bool :=
  (fst p <? fst q)%Z || ((fst p =? fst q)%Z && Nat.leb (snd p) (snd q)).

(** The result order in full: by distance, equal distances by position. *)
Definition dist_then_pos (a b : Z * nat) : Prop :=
  (fst a < fst b)%Z \/ (fst a = fst b /\ (snd a <= snd b)%nat).

Fixpoint insert_hit (p : Z * nat) (l : list (Z * nat)) : list (Z * nat) :=
  match l with
  | [] => [p]
  | q :: l' => if hit_le p q then p :: l else q :: insert_hit p l'
  end.

Definition sort_hits (l : list (Z * nat)) : list (Z * nat) :=
  fold_right insert_hit [] l.

(** All (distance, id) pairs of the stored vectors for a query. *)
Definition all_hits (ix : IndexFlatL2) (q : list Z) : list (Z * nat) :=
  combine (map (l2sq q) (xb ix)) (seq 0 (ntotal ix)).

(** [index.search(q, k)] for one query row: the labels of the [k] nearest
    vectors in ascending distance, padded with [-1] when the index holds
    fewer than [k] vectors. *)
Definition search (ix : IndexFlatL2) (q : list Z) (k : Z) : outcome (list Z) :=
  if negb (Nat.eqb (length q) (d ix)) then Raise AssertionError
  else if (k <=? 0)%Z then Raise RuntimeError
  else
    let found := map (fun p => Z.of_nat (snd p))
                     (firstn (Z.to_nat k) (sort_hits (all_hits ix q))) in
    Ret (found ++ repeat (-1)%Z (Z.to_nat k - List.length found)%nat).

End Faiss.

Import Faiss (IndexFlatL2, mkIndex).

(** ** The embedding model *)

Record Embedder : Type := mkEmbedder {
  emb_dim : nat;                 (* get_sentence_embedding_dimension() *)
  encode : string -> list Z      (* model.encode([t])[0] *)
}.

(** ** [VectorDB] objects and their directory *)

Record VectorDB : Type := mkDB {
  dimension : nat;
  index : IndexFlatL2;
  texts : list string
}.

Inductive file (A : Type) : Type :=
| Corrupt
| Valid (a : A).
Arguments Corrupt {A}.
Arguments Valid {A} a.

(** The step of [save_database] at which the file system fails. *)
Inductive save_step : Type :=
| AtMakedirs      (* os.makedirs *)
| AtWriteIndex    (* faiss.write_index *)
| AtPickleDump.   (* pickle.dump, after open(.., 'wb') truncated the file *)

Record Disk : Type := mkDisk {
  f_index : option (file IndexFlatL2);       (* faiss_index.bin *)
  f_data  : option (file (list string));     (* data.pkl *)
  f_pt    : option (file (list (list Z)));   (* data.pt *)
  f_json  : option (file (list string));     (* texts.json *)
  io_fault : option save_step
}.

Definition set_store_files (dk : Disk) (fi : option (file IndexFlatL2))
    (fd : option (file (list string))) : Disk :=
  mkDisk fi fd (f_pt dk) (f_json dk) (io_fault dk).

(** [VectorDB.save_database]: every error is caught and printed. *)
Definition save_database (st : VectorDB) (dk : Disk) : Disk :=
  match io_fault dk with
  | Some AtMakedirs | Some AtWriteIndex => dk
  | Some AtPickleDump => set_store_files dk (Some (Valid (index st))) (Some Corrupt)
  | None => set_store_files dk (Some (Valid (index st))) (Some (Valid (texts st)))
  end.

(** The tail of [initialize_database], once [self.index] is built: read
    texts.json when present, save, return the object. *)
Definition initialize_texts (E : Embedder) (ix : IndexFlatL2) (dk : Disk)
    : outcome VectorDB * Disk :=
  let finish ts := let st := mkDB (emb_dim E) ix ts in (Ret st, save_database st dk) in
  match f_json dk with
  | Some Corrupt => (Raise LoadError, dk)
  | Some (Valid ts) => finish ts
  | None => finish []
  end.

(** [VectorDB.initialize_database]: an empty index of the model dimension,
    seeded from data.pt and texts.json when they exist (no [try]). *)
Definition initialize_database (E : Embedder) (dk : Disk) : outcome VectorDB * Disk :=
  let ix0 := mkIndex (emb_dim E) [] in
  match f_pt dk with
  | Some Corrupt => (Raise LoadError, dk)
  | Some (Valid m) =>
      match Faiss.add ix0 m with
      | Ret ix => initialize_texts E ix dk
      | Raise e => (Raise e, dk)
      end
  | None => initialize_texts E ix0 dk
  end.

(** [VectorDB.load_database]: any exception falls back to
    [initialize_database]. *)
Definition load_database (E : Embedder) (dk : Disk) : outcome VectorDB * Disk :=
  match f_index dk with
  | Some (Valid ix) =>
      match f_data dk with
      | Some (Valid ts) => (Ret (mkDB (Faiss.d ix) ix ts), dk)
      | _ => initialize_database E dk
      end
  | _ => initialize_database E dk
  end.

(** [VectorDB.__init__] once the embedding model is loaded ("open"). *)
Definition open_db (E : Embedder) (dk : Disk) : outcome VectorDB * Disk :=
  match f_index dk, f_data dk with
  | Some _, Some _ => load_database E dk
  | _, _ => initialize_database E dk
  end.

(** The [try] block of [VectorDB.add_texts]. *)
Definition add_texts_block (E : Embedder) (st : VectorDB) (dk : Disk) (ts : list string)
    : outcome unit * VectorDB * Disk :=
  match Faiss.add (index st) (map (encode E) ts) with
  | Raise e => (Raise e, st, dk)
  | Ret ix =>
      let st' := mkDB (dimension st) ix (texts st ++ ts) in
      (Ret tt, st', save_database st' dk)
  end.

(** [VectorDB.add_texts]: returns early on an empty list; the [except]
    clause prints the error and returns [None]. *)
Definition add_texts (E : Embedder) (st : VectorDB) (dk : Disk) (ts : list string)
    : outcome unit * VectorDB * Disk :=
  match ts with
  | [] => (Ret tt, st, dk)
  | _ =>
      match add_texts_block E st dk ts with
      | (Raise _, st', dk') => (Ret tt, st', dk')
      | r => r
      end
  end.

(** [[self.texts[idx] for idx in indices[0] if idx < len(self.texts)]] *)
Fixpoint lookup_texts (txts : list string) (idxs : list Z) : outcome (list string) :=
  match idxs with
  | [] => Ret []
  | i :: rest =>
      if (i <? Z.of_nat (length txts))%Z then
        match py_index txts i with
        | None => Raise IndexError
        | Some t =>
            match lookup_texts txts rest with
            | Ret r => Ret (t :: r)
            | Raise e => Raise e
            end
        end
      else lookup_texts txts rest
  end.

(** The [try] block of [VectorDB.search]. *)
Definition search_block (E : Embedder) (st : VectorDB) (query : string) (limit : Z)
    : outcome (list string) :=
  let k := Z.min limit (Z.of_nat (length (texts st))) in
  match Faiss.search (index st) (encode E query) k with
  | Raise e => Raise e
  | Ret idxs => lookup_texts (texts st) idxs
  end.

(** [VectorDB.search]. *)
Definition search (E : Embedder) (st : VectorDB) (query : string) (limit : Z)
    : list string :=
  match texts st with
  | [] => []
  | _ =>
      match search_block E st query limit with
      | Ret r => r
      | Raise _ => []
      end
  end.

(** ** [list(set(xs))]

    Python iterates a set of strings in a hash-dependent order; the code only
    relies on the result holding each element of [xs] once.  A conversion is
    any function with that property; [first_occurrence_set_list] is one of
    the orders an interpreter can produce. *)

Definition set_list_ok (set_list : list string -> list string) : Prop :=
  forall l, NoDup (set_list l) /\ (forall x, In x (set_list l) <-> In x l).

Definition first_occurrence_set_list (l : list string) : list string :=
  nodup string_dec l.

(** ** Evidence fusion *)

(** Calls made to the two retrieval back ends. *)
Inductive call : Type :=
| CallVectorSearch (query : string) (limit : Z)
| CallKeywordSearch (query : string).

Section Fusion.

Variable vector_search : string -> Z -> list string.   (* self.vector_db.search *)
Variable keyword_search : string -> list string.       (* self.csv_data.search *)
Variable set_list : list string -> list string.        (* list(set(..)) *)

(** [WorkflowManager._fetch_relevant_data], returning the calls it makes and
    the new [state["data"]].  The audience is [state.get("audience", "")]:
    [None] is Python's [None]. *)
Definition fetch_relevant_data (audience : option string) : list call * list string :=
  match audience with
  | None | Some EmptyString => ([], [])
  | Some a =>
      let vector_results := vector_search a 50%Z in
      let csv_results := keyword_search a in
      let combined_results := set_list (vector_results ++ csv_results) in
      ([CallVectorSearch a 50%Z; CallKeywordSearch a], firstn 100 combined_results)
  end.

(** [BaseAgent.get_relevant_data]. *)
Definition get_relevant_data (audience : string) : list string :=
  let vector_results := vector_search audience 50%Z in
  let csv_results := keyword_search audience in
  firstn 100 (set_list (vector_results ++ csv_results)).

End Fusion.

(** ** [CSVData]: the keyword store *)

(** Column dtypes after [pd.read_csv]: a column holding any non-numeric
    value is [object] and keeps its values as strings. *)
Inductive dtype : Type := Obj | Num.

(** A data frame: column names with dtypes, and rows of cells aligned with
    the columns; [None] is NaN, [Some v] the value as [f"{value}"] prints
    it. *)
Record DataFrame : Type := mkDF {
  df_columns : list (string * dtype);
  df_rows : list (list (option string))
}.

(** A row as the [pd.Series] [iterrows] yields: (label, dtype) and value. *)
Definition Row : Type := list ((string * dtype) * option string).

Definition row_series (df : DataFrame) (cells : list (option string)) : Row :=
  combine (df_columns df) cells.

(** [name in row and not pd.isna(row[name])]: the value and its dtype. *)
Definition present_value (name : string) (row : Row) : option (dtype * string) :=
  match find (fun c => String.eqb (fst (fst c)) name) row with
  | Some ((_, dt), Some v) => Some (dt, v)
  | _ => None
  end.

Fixpoint first_present (fields : list string) (row : Row) : option (dtype * string) :=
  match fields with
  | [] => None
  | f :: fs =>
      match present_value f row with
      | Some p => Some p
      | None => first_present fs row
      end
  end.

(** Python truthiness of a non-NaN value: the empty string and numeric
    zero are false. *)
Definition truthy (dt : dtype) (v : string) : bool :=
  match dt with
  | Obj => negb (String.eqb v "")
  | Num => negb (existsb (String.eqb v) ["0"; "0.0"; "-0.0"])
  end.

Definition name_fields : list string := ["reviewer"; "name"; "user"; "author"].
Definition text_fields : list string :=
  ["review"; "comment"; "feedback"; "text"; "description"].

Definition is_upper (c : ascii) : bool :=
  let n := nat_of_ascii c in Nat.leb 65 n && Nat.leb n 90.
Definition is_lower (c : ascii) : bool :=
  let n := nat_of_ascii c in Nat.leb 97 n && Nat.leb n 122.
Definition to_upper (c : ascii) : ascii :=
  if is_lower c then ascii_of_nat (nat_of_ascii c - 32) else c.
Definition to_lower (c : ascii) : ascii :=
  if is_upper c then ascii_of_nat (nat_of_ascii c + 32) else c.

(** [str.title] on ASCII text: a letter is upper-cased when the previous
    character is not a letter, lower-cased otherwise. *)
Fixpoint title_from (prev_cased : bool) (s : string) : string :=
  match s with
  | EmptyString => EmptyString
  | String c s' =>
      if is_upper c || is_lower c
      then String (if prev_cased then to_lower c else to_upper c) (title_from true s')
      else String c (title_from false s')
  end.

Definition title (s : string) : string := title_from false s.

(** [s.replace('_', ' ')] *)
Fixpoint replace_underscores (s : string) : string :=
  match s with
  | EmptyString => EmptyString
  | String c s' =>
      String (if Ascii.eqb c "_"%char then " "%char else c) (replace_underscores s')
  end.

(** [sep.join(parts)] *)
Fixpoint join (sep : string) (parts : list string) : string :=
  match parts with
  | [] => ""
  | [p] => p
  | p :: ps => String.append p (String.append sep (join sep ps))
  end.

(** [CSVData.format_row_as_review] *)
Definition format_row_as_review (row : Row) : string :=
  let reviewer_part :=
    match first_present name_fields row with
    | Some (dt, v) => if truthy dt v then [String.append "Reviewer: " v] else []
    | None => []
    end in
  let review_part :=
    match first_present text_fields row with
    | Some (dt, v) => if truthy dt v then [String.append "Review: " v] else []
    | None => []
    end in
  let other_parts :=
    flat_map (fun c =>
      match c with
      | ((field, _), Some v) =>
          if existsb (String.eqb field) (name_fields ++ text_fields) then []
          else [String.append (title (replace_underscores field)) (String.append ": " v)]
      | (_, None) => []
      end) row in
  join " | " (reviewer_part ++ review_part ++ other_parts).

Section CSVSearch.

(** [re.search(query, value, re.IGNORECASE) is not None], the test
    [Series.str.contains(query, case=False)] applies; [None] when the query
    is not a valid pattern ([re.error]). *)
Variable re_search : string -> string -> option bool.
Variable set_list : list string -> list string.

(** [data[data[col].str.contains(query, case=False, na=False)]] for the
    column at position [j]: the matching rows in row order, or [None] when
    the call raises. *)
Fixpoint column_matches (query : string) (j : nat) (rows : list (list (option string)))
    : option (list (list (option string))) :=
  match rows with
  | [] => Some []
  | r :: rs =>
      let hit := match nth j r None with
                 | None => Some false
                 | Some s => re_search query s
                 end in
      match hit, column_matches query j rs with
      | Some b, Some ms => Some (if b then r :: ms else ms)
      | _, _ => None
      end
  end.

(** Positions of the [object] columns, [select_dtypes(include=['object'])]. *)
Definition string_cols (df : DataFrame) : list nat :=
  map fst (filter (fun p => match snd (snd p) with Obj => true | Num => false end)
                  (combine (seq 0 (length (df_columns df))) (df_columns df))).

Definition df_empty (df : DataFrame) : bool :=
  match df_columns df, df_rows df with
  | [], _ | _, [] => true
  | _, _ => false
  end.

(** The [results] list built by the column loop of [CSVData.search]; a
    column whose search raises is skipped by the [except] clause. *)
Definition csv_results (df : DataFrame) (query : string) : list string :=
  flat_map (fun j =>
    match column_matches query j (df_rows df) with
    | Some ms => map (fun r => format_row_as_review (row_series df r)) ms
    | None => []
    end) (string_cols df).

(** [CSVData.search] *)
Definition csv_search (df : DataFrame) (query : string) : list string :=
  if df_empty df then []
  else match string_cols df with
       | [] => []
       | _ => firstn 100 (set_list (csv_results df query))
       end.

End CSVSearch.

(** A case-insensitive substring test; it is what [re.search] with
    [IGNORECASE] computes for a query without regex metacharacters over
    ASCII text. *)
Fixpoint lower_string (s : string) : string :=
  match s with
  | EmptyString => EmptyString
  | String c s' => String (to_lower c) (lower_string s')
  end.

Fixpoint is_substring (p s : string) : bool :=
  match s with
  | EmptyString => String.eqb p ""
  | String _ s' => String.prefix p s || is_substring p s'
  end.

Definition plain_re_search (query s : string) : option bool :=
  Some (is_substring (lower_string query) (lower_string s)).

(** ** Concrete inputs *)

(** A two-dimensional embedder separating laptop and phone reviews. *)
Definition laptop_phone_embedder : Embedder :=
  mkEmbedder 2 (fun s =>
    if String.eqb s "a laptop review" then [10; 0]%Z
    else if String.eqb s "laptop" then [10; 1]%Z
    else [0; 10]%Z).

(** A three-dimensional embedder. *)
Definition embedder3 : Embedder := mkEmbedder 3 (fun _ => [1; 2; 3]%Z).

Definition empty_dir : Disk := mkDisk None None None None None.

(** A saved store of one entry next to a data.pt of two vectors and no
    texts.json: open never reads the seeds here. *)
Definition stale_seed_dir : Disk :=
  mkDisk (Some (Valid (mkIndex 2 [[10; 0]]%Z))) (Some (Valid ["a laptop review"]))
         (Some (Valid [[10; 0]; [0; 10]]%Z)) None None.

(** Only the seed file data.pt, holding one vector. *)
Definition seed_only_dir : Disk :=
  mkDisk None None (Some (Valid [[10; 0]]%Z)) None None.

(** Seed files disagreeing in count: two vectors, one text. *)
Definition mismatched_seed_dir : Disk :=
  mkDisk None None (Some (Valid [[10; 0]; [0; 10]]%Z)) (Some (Valid ["a laptop review"])) None.

(** A directory whose next save fails at [faiss.write_index]. *)
Definition unwritable_dir : Disk := mkDisk None None None None (Some AtWriteIndex).

(** A store of dimension 4 holding one entry, and its directory. *)
Definition dim4_index : IndexFlatL2 := mkIndex 4 [[1; 2; 3; 4]]%Z.
Definition dim4_store : VectorDB := mkDB 4 dim4_index ["t"].
Definition dim4_dir : Disk :=
  mkDisk (Some (Valid dim4_index)) (Some (Valid ["t"])) None None None.

(** Unreadable faiss_index.bin and data.pt. *)
Definition corrupt_dir : Disk := mkDisk (Some Corrupt) (Some (Valid [])) (Some Corrupt) None None.

(** Row 0 matches the query in column [b], row 1 in column [a]. *)
Definition df_two_columns : DataFrame :=
  mkDF [("a", Obj); ("b", Obj)] [[Some "x"; Some "foo"]; [Some "FOO"; Some "y"]].

(** Two rows with the same contents. *)
Definition df_duplicate_rows : DataFrame :=
  mkDF [("review", Obj); ("star_rating", Num)]
       [[Some "Great foo"; Some "5"]; [Some "Great foo"; Some "5"]].

(** ** Coherence of the two halves of a store *)

Definition coherent (st : VectorDB) : Prop :=
  Faiss.ntotal (index st) = length (texts st).

(** Number of entries a seed file contributes ([None] and [Corrupt] give 0;
    a corrupt one makes [initialize_database] raise). *)
Definition file_count {A} (f : option (file (list A))) : nat :=
  match f with
  | Some (Valid l) => length l
  | _ => 0
  end.

(** The artifacts [open_db] reads agree in count: faiss_index.bin with
    data.pkl when both load, otherwise data.pt with texts.json. *)
Definition files_agree (dk : Disk) : Prop :=
  match f_index dk, f_data dk with
  | Some (Valid ix), Some (Valid ts) => Faiss.ntotal ix = length ts
  | _, _ => file_count (f_pt dk) = file_count (f_json dk)
  end.

(** The seed files [initialize_database] reads without a [try] can be read,
    and data.pt has the model dimension. *)
Definition seeds_readable (E : Embedder) (dk : Disk) : Prop :=
  match f_pt dk with
  | Some Corrupt => False
  | Some (Valid m) => Forall (fun v => length v = emb_dim E) m
  | None => True
  end /\ f_json dk <> Some Corrupt.

(** ** Generic list facts *)

Lemma in_firstn_gen {A} (n : nat) (l : list A) (x : A) : In x (firstn n l) -> In x l.
Proof.
  revert n; induction l as [|a l IH]; intros [|n] H; simpl in *; try contradiction.
  destruct H as [H|H]; [left; exact H | right; exact (IH n H)].
Qed.

Lemma NoDup_firstn_gen {A} (n : nat) (l : list A) : NoDup l -> NoDup (firstn n l).
Proof.
  revert n; induction l as [|a l IH]; intros [|n] H; simpl; try constructor.
  - inversion H; subst. intro Hin. apply H2. exact (in_firstn_gen n l a Hin).
  - inversion H; subst. apply IH; assumption.
Qed.

(** ** Facts about the FAISS flat search *)

Module FaissFacts.
Import Faiss.

Definition hit_rel (p q : Z * nat) : Prop := hit_le p q = true.

Lemma hit_le_total (p q : Z * nat) : hit_le p q = false -> hit_le q p = true.
Proof.
  unfold hit_le. destruct p as [dp ip], q as [dq iq]; simpl.
  destruct (Z.ltb_spec dp dq), (Z.eqb_spec dp dq), (Z.ltb_spec dq dp),
           (Z.eqb_spec dq dp), (Nat.leb_spec ip iq), (Nat.leb_spec iq ip);
    simpl; intro Hf; try discriminate; try reflexivity; lia.
Qed.

Lemma hit_le_fst (p q : Z * nat) : hit_le p q = true -> (fst p <= fst q)%Z.
Proof.
  unfold hit_le. destruct (Z.ltb_spec (fst p) (fst q)), (Z.eqb_spec (fst p) (fst q));
    simpl; intro Hf; try discriminate; lia.
Qed.

Lemma insert_hit_perm (p : Z * nat) (l : list (Z * nat)) :
  Permutation (insert_hit p l) (p :: l).
Proof.
  induction l as [|q l IH]; simpl; [reflexivity|].
  destruct (hit_le p q); [reflexivity|].
  rewrite IH. apply perm_swap.
Qed.

Lemma sort_hits_perm (l : list (Z * nat)) : Permutation (sort_hits l) l.
Proof.
  induction l as [|p l IH]; simpl; [reflexivity|].
  rewrite insert_hit_perm. constructor. exact IH.
Qed.

Lemma insert_hit_sorted (p : Z * nat) (l : list (Z * nat)) :
  Sorted hit_rel l -> Sorted hit_rel (insert_hit p l).
Proof.
  induction l as [|q l IH]; intro Hs; simpl.
  - repeat constructor.
  - destruct (hit_le p q) eqn:Hpq.
    + constructor; [exact Hs | constructor; exact Hpq].
    + inversion Hs as [|? ? Hl Hhd]; subst. constructor; [apply IH; exact Hl|].
      destruct l as [|r l]; simpl.
      * constructor. apply hit_le_total. exact Hpq.
      * destruct (hit_le p r); constructor.
        -- apply hit_le_total. exact Hpq.
        -- inversion Hhd; assumption.
Qed.

Lemma sort_hits_sorted (l : list (Z * nat)) : Sorted hit_rel (sort_hits l).
Proof.
  induction l as [|p l IH]; simpl; [constructor|].
  apply insert_hit_sorted. exact IH.
Qed.

Lemma sorted_by_distance (l : list (Z * nat)) :
  Sorted (fun a b => (fst a <= fst b)%Z) (sort_hits l).
Proof.
  pose proof (sort_hits_sorted l) as Hs.
  induction Hs as [|a l' _ IH Hhd]; constructor; [exact IH|].
  destruct Hhd as [|b l'' Hab]; constructor. apply hit_le_fst. exact Hab.
Qed.

Lemma sorted_by_distance_then_pos (l : list (Z * nat)) :
  Sorted dist_then_pos (sort_hits l).
Proof.
  pose proof (sort_hits_sorted l) as Hs.
  induction Hs as [|a l' _ IH Hhd]; constructor; [exact IH|].
  destruct Hhd as [|b l'' Hab]; constructor.
  unfold hit_rel, hit_le in Hab. unfold dist_then_pos.
  apply orb_true_iff in Hab as [H|H].
  - left. apply Z.ltb_lt. exact H.
  - apply andb_true_iff in H as [H1 H2]. right.
    split; [apply Z.eqb_eq; exact H1 | apply Nat.leb_le; exact H2].
Qed.

Lemma all_hits_length (ix : IndexFlatL2) (q : list Z) :
  length (all_hits ix q) = ntotal ix.
Proof.
  unfold all_hits, ntotal. rewrite length_combine, length_map, length_seq. lia.
Qed.

Lemma all_hits_in_range (ix : IndexFlatL2) (q : list Z) (h : Z * nat) :
  In h (all_hits ix q) -> (snd h < ntotal ix)%nat.
Proof.
  unfold all_hits. destruct h as [dh ih]. intro H.
  apply in_combine_r in H. apply in_seq in H. simpl. lia.
Qed.

(** With [k] equal to the number of stored vectors and a query of the
    index dimension, the search lists every stored vector, nearest first. *)
Lemma search_all (ix : IndexFlatL2) (q : list Z) :
  length q = d ix -> (0 < ntotal ix)%nat ->
  search ix q (Z.of_nat (ntotal ix)) =
    Ret (map (fun p => Z.of_nat (snd p)) (sort_hits (all_hits ix q))).
Proof.
  intros Hq Hn. unfold search.
  rewrite Hq, Nat.eqb_refl. simpl.
  destruct (Z.leb_spec (Z.of_nat (ntotal ix)) 0); [lia|].
  rewrite Nat2Z.id.
  assert (Hlen : length (sort_hits (all_hits ix q)) = ntotal ix).
  { rewrite (Permutation_length (sort_hits_perm _)). apply all_hits_length. }
  rewrite firstn_all2 by lia. rewrite length_map, Hlen, Nat.sub_diag.
  simpl. rewrite app_nil_r. reflexivity.
Qed.

(** FAISS labels are stored positions or the padding label [-1]. *)
Lemma search_labels (ix : IndexFlatL2) (q : list Z) (k : Z) (idxs : list Z) :
  search ix q k = Ret idxs -> Forall (fun i => (-1 <= i)%Z) idxs.
Proof.
  unfold search.
  destruct (negb (Nat.eqb (length q) (d ix))); [discriminate|].
  destruct (k <=? 0)%Z; [discriminate|].
  intro H; injection H as <-. apply Forall_app. split.
  - apply Forall_forall. intros i Hi. apply in_map_iff in Hi.
    destruct Hi as [p [<- _]]. lia.
  - apply Forall_forall. intros i Hi. apply repeat_spec in Hi. lia.
Qed.

End FaissFacts.

(** ** Facts about the store operations *)

Lemma faiss_add_ntotal (ix ix' : IndexFlatL2) (x : list (list Z)) :
  Faiss.add ix x = Ret ix' -> Faiss.ntotal ix' = (Faiss.ntotal ix + length x)%nat.
Proof.
  unfold Faiss.add. destruct (forallb _ x); [|discriminate].
  intro H; injection H as <-. unfold Faiss.ntotal; simpl. apply length_app.
Qed.

Lemma faiss_add_ok (ix : IndexFlatL2) (x : list (list Z)) :
  Forall (fun v => length v = Faiss.d ix) x ->
  Faiss.add ix x = Ret (mkIndex (Faiss.d ix) (Faiss.xb ix ++ x)).
Proof.
  intro H. unfold Faiss.add.
  replace (forallb _ x) with true; [reflexivity|].
  symmetry. apply forallb_forall. intros v Hv.
  apply Nat.eqb_eq. rewrite Forall_forall in H. apply H. exact Hv.
Qed.

Lemma faiss_add_mismatch (ix : IndexFlatL2) (x : list (list Z)) (v : list Z) :
  In v x -> length v <> Faiss.d ix -> Faiss.add ix x = Raise AssertionError.
Proof.
  intros Hin Hne. unfold Faiss.add.
  destruct (forallb _ x) eqn:Hf; [|reflexivity].
  rewrite forallb_forall in Hf. specialize (Hf v Hin).
  apply Nat.eqb_eq in Hf. contradiction.
Qed.

Lemma initialize_coherent (E : Embedder) (dk dk' : Disk) (s : VectorDB) :
  file_count (f_pt dk) = file_count (f_json dk) ->
  initialize_database E dk = (Ret s, dk') -> coherent s.
Proof.
  unfold initialize_database, initialize_texts, coherent.
  destruct (f_pt dk) as [[|m]|] eqn:Hpt; simpl; [discriminate| |].
  - destruct (Faiss.add _ m) as [ix|e] eqn:Hadd; [|discriminate].
    apply faiss_add_ntotal in Hadd. simpl in Hadd.
    destruct (f_json dk) as [[|ts]|]; simpl; intros Hc H;
      try discriminate; injection H as <- _; simpl; lia.
  - destruct (f_json dk) as [[|ts]|]; simpl; intros Hc H;
      try discriminate; injection H as <- _; simpl; unfold Faiss.ntotal; simpl; lia.
Qed.

Lemma initialize_succeeds (E : Embedder) (dk : Disk) :
  seeds_readable E dk -> exists s dk', initialize_database E dk = (Ret s, dk').
Proof.
  unfold seeds_readable, initialize_database, initialize_texts.
  intros [Hpt Hjson].
  assert (Htexts : forall ix, exists s dk',
    (match f_json dk with
     | Some Corrupt => (Raise LoadError, dk)
     | Some (Valid ts) => (Ret (mkDB (emb_dim E) ix ts), save_database (mkDB (emb_dim E) ix ts) dk)
     | None => (Ret (mkDB (emb_dim E) ix []), save_database (mkDB (emb_dim E) ix []) dk)
     end) = (Ret s, dk')).
  { intro ix. destruct (f_json dk) as [[|ts]|]; [contradiction| |]; eauto. }
  destruct (f_pt dk) as [[|m]|]; [contradiction| |apply Htexts].
  rewrite faiss_add_ok by exact Hpt. apply Htexts.
Qed.

Lemma lookup_texts_positions (txts : list string) (hs : list (Z * nat)) :
  Forall (fun h => (snd h < length txts)%nat) hs ->
  lookup_texts txts (map (fun p => Z.of_nat (snd p)) hs) =
    Ret (map (fun h => nth (snd h) txts "") hs).
Proof.
  induction hs as [|h hs IH]; intro Hall; simpl; [reflexivity|].
  inversion Hall as [|? ? Hh Hrest]; subst.
  destruct (Z.ltb_spec (Z.of_nat (snd h)) (Z.of_nat (length txts))); [|lia].
  unfold py_index.
  destruct (Z.leb_spec 0 (Z.of_nat (snd h))); [|lia].
  rewrite Nat2Z.id, (nth_error_nth' txts "" Hh), IH by exact Hrest.
  reflexivity.
Qed.

Lemma lookup_texts_safe (txts : list string) (idxs : list Z) :
  txts <> [] -> Forall (fun i => (-1 <= i)%Z) idxs ->
  exists r, lookup_texts txts idxs = Ret r /\ incl r txts.
Proof.
  intros Hne. induction idxs as [|i idxs IH]; intro Hall; simpl.
  - exists []. split; [reflexivity|apply incl_nil_l].
  - inversion Hall as [|? ? Hi Hrest]; subst.
    destruct IH as [r [Hr Hincl]]; [exact Hrest|].
    destruct (Z.ltb_spec i (Z.of_nat (length txts))); [|exists r; auto].
    assert (Hlen : (0 < length txts)%nat) by (destruct txts; [contradiction|simpl; lia]).
    assert (Hget : exists t, py_index txts i = Some t /\ In t txts).
    { unfold py_index.
      destruct (Z.leb_spec 0 i).
      - exists (nth (Z.to_nat i) txts ""). split.
        + apply nth_error_nth'. lia.
        + apply nth_In. lia.
      - destruct (Z.leb_spec (- Z.of_nat (length txts)) i); [|lia].
        exists (nth (Z.to_nat (Z.of_nat (length txts) + i)) txts ""). split.
        + apply nth_error_nth'. lia.
        + apply nth_In. lia. }
    destruct Hget as [t [-> Ht]]. rewrite Hr.
    exists (t :: r). split; [reflexivity|]. apply incl_cons; assumption.
Qed.

(** ** Facts about the keyword store *)

Lemma first_occurrence_set_list_ok : set_list_ok first_occurrence_set_list.
Proof.
  intro l. split; [apply NoDup_nodup|]. intro x. apply nodup_In.
Qed.

Lemma column_matches_sound (re_search : string -> string -> option bool)
    (query : string) (j : nat) (rows ms : list (list (option string))) :
  column_matches re_search query j rows = Some ms ->
  forall r, In r ms -> In r rows /\
    exists s, nth j r None = Some s /\ re_search query s = Some true.
Proof.
  revert ms; induction rows as [|r0 rows IH]; intros ms H r Hr; simpl in H.
  - injection H as <-. contradiction.
  - destruct (match nth j r0 None with
              | Some s => re_search query s
              | None => Some false end) as [b|] eqn:Hb; [|discriminate].
    destruct (column_matches re_search query j rows) as [ms'|] eqn:Hrest; [|discriminate].
    injection H as <-.
    destruct b.
    + destruct Hr as [<- | Hr].
      * split; [left; reflexivity|].
        destruct (nth j r0 None) as [s|]; [exists s; auto|discriminate].
      * destruct (IH ms' eq_refl r Hr) as [Hin Hs]. split; [right; exact Hin|exact Hs].
    + destruct (IH ms' eq_refl r Hr) as [Hin Hs]. split; [right; exact Hin|exact Hs].
Qed.

Lemma csv_results_in (re_search : string -> string -> option bool)
    (df : DataFrame) (query x : string) :
  In x (csv_results re_search df query) <->
  exists j ms r, In j (string_cols df) /\
    column_matches re_search query j (df_rows df) = Some ms /\ In r ms /\
    x = format_row_as_review (row_series df r).
Proof.
  unfold csv_results. rewrite in_flat_map. split.
  - intros [j [Hj Hx]].
    destruct (column_matches re_search query j (df_rows df)) as [ms|] eqn:Hm;
      [|contradiction].
    apply in_map_iff in Hx. destruct Hx as [r [<- Hr]].
    exists j, ms, r. auto.
  - intros [j [ms [r [Hj [Hm [Hr ->]]]]]].
    exists j. split; [exact Hj|]. rewrite Hm. exact (in_map (fun r => format_row_as_review (row_series df r)) ms r Hr).
Qed.

(** ** Routing and recommendation text of the workflow *)

Section Workflow.

(** Python's [str.strip()] and [str.lower()], on the text the LLM returns. *)
Variable py_strip : string -> string.
Variable py_lower : string -> string.

Definition agent_mapping : list (string * string) :=
  [("demographics", "demographics"); ("interests", "interests");
   ("keywords", "keywords"); ("usage", "usage");
   ("satisfaction", "satisfaction"); ("purchase", "purchase");
   ("personality", "personality"); ("lifestyle", "lifestyle");
   ("values", "values")].

(** [dict.get(key, default)] on an association list. *)
Fixpoint dict_get (m : list (string * string)) (key default : string) : string :=
  match m with
  | [] => default
  | (k, v) :: m' => if String.eqb k key then v else dict_get m' key default
  end.

(** [WorkflowManager._determine_agent_type] (and
    [SupervisorAgent.determine_analysis_type]) given the LLM's answer. *)
Definition determine_agent_type (llm_response : string) : string :=
  let category := py_lower (py_strip llm_response) in
  dict_get agent_mapping category "demographics".

(** [text.split("\n")] *)
Fixpoint split_newlines (s : string) : list string :=
  match s with
  | EmptyString => [""]
  | String c s' =>
      let rest := split_newlines s' in
      if Ascii.eqb c "010"%char then "" :: rest
      else match rest with
           | [] => [String c ""]
           | r :: rs => String c r :: rs
           end
  end.

Definition bullet : string := "•".

(** The parsing part of [WorkflowManager._generate_specific_recommendations]. *)
Definition extract_bullet_points (recommendations_response : string) : list string :=
  let bullet_points :=
    filter (fun line => String.prefix bullet line || String.prefix "-" line)
           (map py_strip (split_newlines recommendations_response)) in
  match bullet_points with
  | [] => [String.append "• " (py_strip recommendations_response)]
  | _ => bullet_points
  end.

End Workflow.

(** * Claims *)

(** ** C1 *)

(** C1 (counterexample): the coherence invariant fails after an open.  With
    only data.pt present (one vector) [initialize_database] seeds the index
    with one vector and leaves [texts] empty. *)
Lemma open_seed_only_incoherent :
  match fst (open_db laptop_phone_embedder seed_only_dir) with
  | Ret s => Faiss.ntotal (index s) = 1%nat /\ texts s = [] /\ ~ coherent s
  | Raise _ => False
  end.
Proof.
  vm_compute. split; [reflexivity|]. split; [reflexivity|]. discriminate.
Qed.

(** C1 (amended): [add_texts] preserves coherence, and [open_db] yields a
    coherent store whenever the artifacts it may read agree in count
    (faiss_index.bin with data.pkl, data.pt with texts.json). *)
Theorem add_and_open_keep_coherence :
  (forall E st dk ts, coherent st -> coherent (snd (fst (add_texts E st dk ts)))) /\
  (forall E dk s dk', files_agree dk -> open_db E dk = (Ret s, dk') -> coherent s).
Proof.
  split.
  - intros E st dk ts Hc. unfold add_texts.
    destruct ts as [|t ts]; [exact Hc|].
    unfold add_texts_block.
    destruct (Faiss.add (index st) (map (encode E) (t :: ts))) as [ix|e] eqn:Hadd;
      [|exact Hc].
    apply faiss_add_ntotal in Hadd. unfold coherent in *. simpl.
    rewrite Hadd, length_app, length_map, Hc. reflexivity.
  - intros E dk s dk' Hagree. unfold files_agree in Hagree. unfold open_db, load_database.
    destruct (f_index dk) as [[|ix]|] eqn:Hfi;
      [| |apply initialize_coherent; exact Hagree].
    + destruct (f_data dk) as [fd|];
        apply initialize_coherent; exact Hagree.
    + destruct (f_data dk) as [[|ts]|] eqn:Hfd;
        [apply initialize_coherent; exact Hagree| |apply initialize_coherent; exact Hagree].
      intro H; injection H as <- _. unfold coherent; simpl. exact Hagree.
Qed.

Lemma add_and_open_keep_coherence_witness :
  coherent (snd (fst (add_texts laptop_phone_embedder (mkDB 2 (mkIndex 2 []) [])
                        empty_dir ["a laptop review"]))) /\
  coherent (match fst (open_db laptop_phone_embedder stale_seed_dir) with
            | Ret s => s | Raise _ => mkDB 0 (mkIndex 0 []) [] end).
Proof.
  split.
  - apply (proj1 add_and_open_keep_coherence). reflexivity.
  - apply (proj2 add_and_open_keep_coherence laptop_phone_embedder stale_seed_dir _
             (snd (open_db laptop_phone_embedder stale_seed_dir))).
    + reflexivity.
    + vm_compute. reflexivity.
Defined.

(** ** C2 *)

(** C2 (counterexample): when [faiss.write_index] fails, [add_texts] still
    returns normally and the new entry stays in memory; only the directory
    is left as it was. *)
Lemma add_unwritable_keeps_entry :
  add_texts laptop_phone_embedder (mkDB 2 (mkIndex 2 []) []) unwritable_dir
    ["a laptop review"] =
  (Ret tt, mkDB 2 (mkIndex 2 [[10; 0]%Z]) ["a laptop review"], unwritable_dir).
Proof. reflexivity. Qed.

(** C2 (amended): whatever the outcome of the save, an [add_texts] of
    non-empty texts of the index dimension returns normally with the new
    vectors appended to the index and the texts appended to [texts]; the
    save's error is swallowed and nothing is rolled back. *)
Theorem add_texts_no_rollback (E : Embedder) (st : VectorDB) (dk : Disk)
    (ts : list string) :
  ts <> [] ->
  Forall (fun t => length (encode E t) = Faiss.d (index st)) ts ->
  let st' := mkDB (dimension st)
                  (mkIndex (Faiss.d (index st)) (Faiss.xb (index st) ++ map (encode E) ts))
                  (texts st ++ ts) in
  add_texts E st dk ts = (Ret tt, st', save_database st' dk).
Proof.
  intros Hne Hdim st'. unfold add_texts.
  destruct ts as [|t ts']; [contradiction|].
  unfold add_texts_block. rewrite faiss_add_ok.
  - reflexivity.
  - apply Forall_map. exact Hdim.
Qed.

Lemma add_texts_no_rollback_witness :
  add_texts laptop_phone_embedder (mkDB 2 (mkIndex 2 []) []) unwritable_dir
    ["a laptop review"] =
  (Ret tt, mkDB 2 (mkIndex 2 ([] ++ [[10; 0]%Z])) ([] ++ ["a laptop review"]),
   save_database (mkDB 2 (mkIndex 2 ([] ++ [[10; 0]%Z])) ([] ++ ["a laptop review"]))
     unwritable_dir).
Proof.
  apply (add_texts_no_rollback laptop_phone_embedder (mkDB 2 (mkIndex 2 []) [])
           unwritable_dir ["a laptop review"]).
  - discriminate.
  - repeat constructor.
Defined.

(** ** C4 *)

(** C4 (counterexample): a store of dimension 4 given a 3-dimensional
    embedding.  [add_texts] raises nothing: the faiss assertion is caught,
    printed, and the call returns [None] with the store unchanged. *)
Lemma add_dimension_mismatch_returns_normally :
  add_texts embedder3 dim4_store dim4_dir ["u"] = (Ret tt, dim4_store, dim4_dir).
Proof. reflexivity. Qed.

(** C4 (amended): an [add_texts] whose embeddings do not all have the index
    dimension returns normally (no exception reaches the caller) and leaves
    the store and its directory unchanged. *)
Theorem add_texts_dimension_mismatch (E : Embedder) (st : VectorDB) (dk : Disk)
    (ts : list string) (t : string) :
  In t ts -> length (encode E t) <> Faiss.d (index st) ->
  add_texts E st dk ts = (Ret tt, st, dk).
Proof.
  intros Hin Hne. unfold add_texts.
  destruct ts as [|t0 ts']; [contradiction|].
  unfold add_texts_block.
  rewrite (faiss_add_mismatch (index st) _ (encode E t)).
  - reflexivity.
  - apply in_map. exact Hin.
  - exact Hne.
Qed.

Lemma add_texts_dimension_mismatch_witness :
  add_texts embedder3 dim4_store dim4_dir ["u"] = (Ret tt, dim4_store, dim4_dir).
Proof.
  apply (add_texts_dimension_mismatch embedder3 dim4_store dim4_dir ["u"] "u").
  - left; reflexivity.
  - simpl. lia.
Defined.

(** ** C5 *)

(** C5 (counterexample): a store opened from seed files holding two vectors
    and one text.  A search with [limit = 5 > size() = 1] asks FAISS for one
    label, gets label 1 (the nearer vector), drops it as [1 >= len(texts)],
    and returns no result instead of [size()] results. *)
Lemma search_incoherent_store_short :
  match fst (open_db laptop_phone_embedder mismatched_seed_dir) with
  | Ret s => length (texts s) = 1%nat /\ search laptop_phone_embedder s "phone" 5 = []
  | Raise _ => False
  end.
Proof. vm_compute. split; reflexivity. Qed.

(** C5 (amended): a search on a store without texts returns [[]].  On a
    coherent store (as many vectors as texts), with a query embedding of the
    index dimension and [limit >= size()], it returns all [size()] texts,
    ordered by ascending distance of their vectors to the query, vectors at
    equal distance in the order of their positions. *)
Theorem search_boundary (E : Embedder) (st : VectorDB) (q : string) (limit : Z) :
  (texts st = [] -> search E st q limit = []) /\
  (coherent st -> length (encode E q) = Faiss.d (index st) ->
   (Z.of_nat (length (texts st)) <= limit)%Z ->
   exists hits,
     Permutation hits (Faiss.all_hits (index st) (encode E q)) /\
     Sorted Faiss.dist_then_pos hits /\
     search E st q limit = map (fun h => nth (snd h) (texts st) "") hits /\
     length (search E st q limit) = length (texts st)).
Proof.
  split.
  - intro Ht. unfold search. rewrite Ht. reflexivity.
  - intros Hc Hq Hlim.
    exists (Faiss.sort_hits (Faiss.all_hits (index st) (encode E q))).
    assert (Hperm := FaissFacts.sort_hits_perm (Faiss.all_hits (index st) (encode E q))).
    assert (Hlen := FaissFacts.all_hits_length (index st) (encode E q)).
    assert (Hsearch : search E st q limit =
              map (fun h => nth (snd h) (texts st) "")
                  (Faiss.sort_hits (Faiss.all_hits (index st) (encode E q)))).
    { unfold search. destruct (texts st) as [|t0 ts0] eqn:Ht.
      - unfold coherent in Hc. rewrite Ht in Hc.
        unfold Faiss.all_hits, Faiss.ntotal in *.
        destruct (Faiss.xb (index st)); [reflexivity|discriminate].
      - unfold search_block. rewrite Ht.
        unfold coherent in Hc. rewrite Ht in Hc.
        replace (Z.min limit (Z.of_nat (length (t0 :: ts0))))
          with (Z.of_nat (Faiss.ntotal (index st))) by (rewrite Hc in *; lia).
        rewrite FaissFacts.search_all by (try exact Hq; rewrite Hc; simpl; lia).
        rewrite lookup_texts_positions; [reflexivity|].
        apply Forall_forall. intros h Hh.
        apply (Permutation_in _ Hperm) in Hh.
        apply FaissFacts.all_hits_in_range in Hh. rewrite <- Hc. exact Hh. }
    split; [exact Hperm|]. split; [apply FaissFacts.sorted_by_distance_then_pos|].
    split; [exact Hsearch|].
    rewrite Hsearch, length_map, (Permutation_length Hperm), Hlen. exact Hc.
Qed.

Lemma search_boundary_witness :
  search laptop_phone_embedder (mkDB 2 (mkIndex 2 []) []) "laptop" 3 = [] /\
  exists hits,
    Permutation hits (Faiss.all_hits (mkIndex 2 [[10; 0]; [0; 10]]%Z) [10; 1]%Z) /\
    Sorted Faiss.dist_then_pos hits /\
    search laptop_phone_embedder
      (mkDB 2 (mkIndex 2 [[10; 0]; [0; 10]]%Z) ["a laptop review"; "a phone review"])
      "laptop" 3 =
      map (fun h => nth (snd h) ["a laptop review"; "a phone review"] "") hits /\
    length (search laptop_phone_embedder
      (mkDB 2 (mkIndex 2 [[10; 0]; [0; 10]]%Z) ["a laptop review"; "a phone review"])
      "laptop" 3) = 2%nat.
Proof.
  split.
  - apply (proj1 (search_boundary laptop_phone_embedder (mkDB 2 (mkIndex 2 []) [])
                    "laptop" 3)).
    reflexivity.
  - apply (proj2 (search_boundary laptop_phone_embedder
             (mkDB 2 (mkIndex 2 [[10; 0]; [0; 10]]%Z) ["a laptop review"; "a phone review"])
             "laptop" 3)).
    + reflexivity.
    + reflexivity.
    + simpl. lia.
Defined.

(** ** C10 *)

Lemma faiss_search_raise (ix : IndexFlatL2) (q : list Z) (k : Z) (e : exn) :
  Faiss.search ix q k = Raise e -> e <> IndexError.
Proof.
  unfold Faiss.search.
  destruct (negb (Nat.eqb (length q) (Faiss.d ix))).
  - intro H; injection H as <-. discriminate.
  - destruct (k <=? 0)%Z; intro H; [injection H as <-|]; discriminate.
Qed.

(** C10: on a store holding texts, the lookup of the FAISS labels in
    [search] never raises [IndexError]: labels are stored positions or the
    padding [-1], those [>= len(texts)] are dropped, and [-1] reads the last
    text.  Every result of [search] is one of the store's texts. *)
Theorem search_no_out_of_range (E : Embedder) (st : VectorDB) (q : string) (limit : Z) :
  texts st <> [] ->
  search_block E st q limit <> Raise IndexError /\ incl (search E st q limit) (texts st).
Proof.
  intro Hne.
  assert (Hb : (exists r, search_block E st q limit = Ret r /\ incl r (texts st)) \/
               (exists e, search_block E st q limit = Raise e /\ e <> IndexError)).
  { unfold search_block.
    destruct (Faiss.search (index st) (encode E q) _) as [idxs|e] eqn:Hs.
    - left. apply lookup_texts_safe; [exact Hne|].
      exact (FaissFacts.search_labels _ _ _ _ Hs).
    - right. exists e. split; [reflexivity|]. exact (faiss_search_raise _ _ _ _ Hs). }
  destruct Hb as [[r [Hr Hincl]] | [e [He Hne']]].
  - split; [rewrite Hr; discriminate|].
    unfold search. rewrite Hr. destruct (texts st); [contradiction|exact Hincl].
  - split; [rewrite He; intro Heq; injection Heq; exact Hne'|].
    unfold search. rewrite He. destruct (texts st); apply incl_nil_l.
Qed.

Lemma search_no_out_of_range_witness :
  search_block laptop_phone_embedder
    (mkDB 2 (mkIndex 2 [[10; 0]; [0; 10]; [5; 5]]%Z) ["a laptop review"])
    "phone" 2 <> Raise IndexError /\
  incl (search laptop_phone_embedder
          (mkDB 2 (mkIndex 2 [[10; 0]; [0; 10]; [5; 5]]%Z) ["a laptop review"])
          "phone" 2) ["a laptop review"].
Proof.
  apply (search_no_out_of_range laptop_phone_embedder
           (mkDB 2 (mkIndex 2 [[10; 0]; [0; 10]; [5; 5]]%Z) ["a laptop review"])
           "phone" 2).
  discriminate.
Defined.

(** ** C3 *)

(** C3: both fusion paths ([_fetch_relevant_data] and
    [get_relevant_data]) return at most 100 pieces of evidence, pairwise
    distinct, for every audience and every set iteration order. *)
Theorem evidence_fusion_bounded_distinct
    (vector_search : string -> Z -> list string) (keyword_search : string -> list string)
    (set_list : list string -> list string) :
  set_list_ok set_list ->
  (forall audience,
     length (snd (fetch_relevant_data vector_search keyword_search set_list audience)) <= 100 /\
     NoDup (snd (fetch_relevant_data vector_search keyword_search set_list audience))) /\
  (forall audience,
     length (get_relevant_data vector_search keyword_search set_list audience) <= 100 /\
     NoDup (get_relevant_data vector_search keyword_search set_list audience)).
Proof.
  intro Hset. split.
  - intros [a|]; [|simpl; split; [lia|constructor]].
    destruct a as [|c a']; [simpl; split; [lia|constructor]|].
    change (snd (fetch_relevant_data vector_search keyword_search set_list
                   (Some (String c a'))))
      with (firstn 100 (set_list (vector_search (String c a') 50%Z ++
                                  keyword_search (String c a')))).
    split.
    + apply firstn_le_length.
    + apply NoDup_firstn_gen. apply Hset.
  - intro a. unfold get_relevant_data. split.
    + apply firstn_le_length.
    + apply NoDup_firstn_gen. apply Hset.
Qed.

Lemma evidence_fusion_bounded_distinct_witness :
  (length (snd (fetch_relevant_data (fun _ _ => ["review Y"; "review Z"])
                  (fun _ => ["review X"; "review Y"]) first_occurrence_set_list
                  (Some "laptop"))) <= 100 /\
   NoDup (snd (fetch_relevant_data (fun _ _ => ["review Y"; "review Z"])
                  (fun _ => ["review X"; "review Y"]) first_occurrence_set_list
                  (Some "laptop")))).
Proof.
  apply (proj1 (evidence_fusion_bounded_distinct (fun _ _ => ["review Y"; "review Z"])
           (fun _ => ["review X"; "review Y"]) first_occurrence_set_list
           first_occurrence_set_list_ok)).
Defined.

(** ** C7 *)

(** C7: an empty (or [None]) audience makes [_fetch_relevant_data] store an
    empty evidence list without calling either search. *)
Theorem empty_audience_no_retrieval
    (vector_search : string -> Z -> list string) (keyword_search : string -> list string)
    (set_list : list string -> list string) :
  fetch_relevant_data vector_search keyword_search set_list (Some "") = ([], []) /\
  fetch_relevant_data vector_search keyword_search set_list None = ([], []).
Proof. split; reflexivity. Qed.

(** ** C6 *)

(** C6 (counterexample), with the substring matcher and one admissible set
    order: two identical matching rows give one result, and rows found
    through different columns come out column by column, row 1 before
    row 0. *)
Lemma csv_search_not_per_row :
  csv_search plain_re_search first_occurrence_set_list df_duplicate_rows "foo" =
    ["Review: Great foo | Star Rating: 5"] /\
  csv_search plain_re_search first_occurrence_set_list df_two_columns "foo" =
    ["A: FOO | B: y"; "A: x | B: foo"].
Proof. split; reflexivity. Qed.

(** C6 (amended): for every pattern matcher and every set iteration order,
    [CSVData.search] returns at most 100 pairwise distinct strings, each the
    formatting of a row whose value in some [object] column matches the
    query; and when the formatted matches (collected column by column) are
    at most 100 distinct strings, every one of them is returned. *)
Theorem csv_search_contract (re_search : string -> string -> option bool)
    (set_list : list string -> list string) (df : DataFrame) (query : string) :
  set_list_ok set_list ->
  let res := csv_search re_search set_list df query in
  NoDup res /\ length res <= 100 /\
  (forall x, In x res -> exists j r s,
      In j (string_cols df) /\ In r (df_rows df) /\ nth j r None = Some s /\
      re_search query s = Some true /\ x = format_row_as_review (row_series df r)) /\
  (df_empty df = false -> length (set_list (csv_results re_search df query)) <= 100 ->
   forall j ms r, In j (string_cols df) ->
     column_matches re_search query j (df_rows df) = Some ms -> In r ms ->
     In (format_row_as_review (row_series df r)) res).
Proof.
  intros Hset res.
  assert (Hres : res = [] \/ res = firstn 100 (set_list (csv_results re_search df query))).
  { unfold res, csv_search. destruct (df_empty df); [left; reflexivity|].
    destruct (string_cols df); [left|right]; reflexivity. }
  split; [|split; [|split]].
  - destruct Hres as [-> | ->]; [constructor|].
    apply NoDup_firstn_gen. apply Hset.
  - destruct Hres as [-> | ->]; [simpl; lia|apply firstn_le_length].
  - intros x Hx. destruct Hres as [Hr | Hr]; rewrite Hr in Hx; [contradiction|].
    apply in_firstn_gen in Hx. apply (proj1 (proj2 (Hset _) x)) in Hx.
    apply csv_results_in in Hx.
    destruct Hx as [j [ms [r [Hj [Hm [Hr' ->]]]]]].
    destruct (column_matches_sound _ _ _ _ _ Hm r Hr') as [Hin [s [Hs Hmatch]]].
    exists j, r, s. auto.
  - intros Hne Hlen j ms r Hj Hm Hr.
    unfold res, csv_search. rewrite Hne.
    destruct (string_cols df) eqn:Hcols; [contradiction|].
    rewrite firstn_all2 by exact Hlen.
    apply (proj2 (proj2 (Hset _) _)). apply csv_results_in.
    exists j, ms, r. rewrite Hcols. auto.
Qed.

Lemma csv_search_contract_witness :
  let res := csv_search plain_re_search first_occurrence_set_list df_two_columns "foo" in
  NoDup res /\ length res <= 100 /\
  (forall x, In x res -> exists j r s,
      In j (string_cols df_two_columns) /\ In r (df_rows df_two_columns) /\
      nth j r None = Some s /\ plain_re_search "foo" s = Some true /\
      x = format_row_as_review (row_series df_two_columns r)) /\
  (df_empty df_two_columns = false ->
   length (first_occurrence_set_list (csv_results plain_re_search df_two_columns "foo")) <= 100 ->
   forall j ms r, In j (string_cols df_two_columns) ->
     column_matches plain_re_search "foo" j (df_rows df_two_columns) = Some ms -> In r ms ->
     In (format_row_as_review (row_series df_two_columns r)) res).
Proof.
  apply (csv_search_contract plain_re_search first_occurrence_set_list df_two_columns "foo").
  exact first_occurrence_set_list_ok.
Defined.

(** ** C8 *)

(** C8 (counterexample): faiss_index.bin cannot be read, so [load_database]
    falls back to [initialize_database], whose unguarded [torch.load] of a
    corrupt data.pt raises out of the constructor. *)
Lemma open_corrupt_seed_raises :
  open_db laptop_phone_embedder corrupt_dir = (Raise LoadError, corrupt_dir).
Proof. reflexivity. Qed.

(** C8 (amended): an error reading faiss_index.bin or data.pkl never reaches
    the caller: [open_db] either yields a store or is exactly
    [initialize_database]; and when the seed files data.pt and texts.json
    are absent or readable (data.pt of the model dimension), [open_db]
    always yields a store. *)
Theorem open_fail_soft (E : Embedder) (dk : Disk) :
  ((exists s dk', open_db E dk = (Ret s, dk')) \/ open_db E dk = initialize_database E dk) /\
  (seeds_readable E dk -> exists s dk', open_db E dk = (Ret s, dk')).
Proof.
  assert (Hshape : (exists s dk', open_db E dk = (Ret s, dk')) \/
                   open_db E dk = initialize_database E dk).
  { unfold open_db, load_database.
    destruct (f_index dk) as [[|ix]|]; destruct (f_data dk) as [[|ts]|];
      try (right; reflexivity).
    left. eexists; eexists; reflexivity. }
  split; [exact Hshape|].
  intro Hseeds. destruct Hshape as [Hok | ->]; [exact Hok|].
  apply initialize_succeeds. exact Hseeds.
Qed.

Lemma open_fail_soft_witness :
  exists s dk', open_db laptop_phone_embedder mismatched_seed_dir = (Ret s, dk').
Proof.
  apply (proj2 (open_fail_soft laptop_phone_embedder mismatched_seed_dir)).
  split.
  - repeat constructor.
  - discriminate.
Defined.

(** ** C9 *)

(** C9: when the directory accepts the writes, opening after
    [save_database] loads back the same index and the same texts, and the
    loaded store answers every search as the saved one. *)
Theorem save_then_open_roundtrip (E : Embedder) (st : VectorDB) (dk : Disk) :
  io_fault dk = None ->
  exists st',
    open_db E (save_database st dk) = (Ret st', save_database st dk) /\
    texts st' = texts st /\ index st' = index st /\
    (forall q limit, search E st' q limit = search E st q limit).
Proof.
  intro Hio. unfold save_database. rewrite Hio.
  exists (mkDB (Faiss.d (index st)) (index st) (texts st)).
  split; [reflexivity|]. split; [reflexivity|]. split; [reflexivity|].
  intros q limit. reflexivity.
Qed.

Lemma save_then_open_roundtrip_witness :
  exists st',
    open_db laptop_phone_embedder (save_database dim4_store empty_dir) =
      (Ret st', save_database dim4_store empty_dir) /\
    texts st' = texts dim4_store /\ index st' = index dim4_store /\
    (forall q limit, search laptop_phone_embedder st' q limit =
                     search laptop_phone_embedder dim4_store q limit).
Proof.
  apply (save_then_open_roundtrip laptop_phone_embedder dim4_store empty_dir).
  reflexivity.
Defined.

(** * Further properties of the code *)

(** ** Helper facts *)

Lemma search_top_labels (ix : IndexFlatL2) (q : list Z) (k : nat) :
  length q = Faiss.d ix -> (0 < k)%nat -> (k <= Faiss.ntotal ix)%nat ->
  Faiss.search ix q (Z.of_nat k) =
    Ret (map (fun p => Z.of_nat (snd p)) (firstn k (Faiss.sort_hits (Faiss.all_hits ix q)))).
Proof.
  intros Hq Hk Hkn. unfold Faiss.search.
  rewrite Hq, Nat.eqb_refl. simpl.
  destruct (Z.leb_spec (Z.of_nat k) 0); [lia|].
  rewrite Nat2Z.id.
  assert (Hlen : length (Faiss.sort_hits (Faiss.all_hits ix q)) = Faiss.ntotal ix).
  { rewrite (Permutation_length (FaissFacts.sort_hits_perm _)).
    apply FaissFacts.all_hits_length. }
  rewrite length_map, length_firstn, Hlen.
  replace (k - Nat.min k (Faiss.ntotal ix))%nat with 0%nat by lia.
  simpl. rewrite app_nil_r. reflexivity.
Qed.

Lemma faiss_search_length (ix : IndexFlatL2) (q : list Z) (k : Z) (idxs : list Z) :
  Faiss.search ix q k = Ret idxs -> length idxs = Z.to_nat k /\ (0 < k)%Z.
Proof.
  unfold Faiss.search.
  destruct (negb (Nat.eqb (length q) (Faiss.d ix))); [discriminate|].
  destruct (Z.leb_spec k 0); [discriminate|].
  intro Hs; injection Hs as <-.
  rewrite length_app, repeat_length.
  pose proof (firstn_le_length (Z.to_nat k)
                (Faiss.sort_hits (Faiss.all_hits ix q))).
  rewrite length_map. split; lia.
Qed.

Lemma lookup_texts_length (txts : list string) (idxs : list Z) (r : list string) :
  lookup_texts txts idxs = Ret r -> (length r <= length idxs)%nat.
Proof.
  revert r; induction idxs as [|i idxs IH]; intros r H; simpl in H.
  - injection H as <-. simpl. lia.
  - destruct (i <? Z.of_nat (length txts))%Z.
    + destruct (py_index txts i); [|discriminate].
      destruct (lookup_texts txts idxs) as [r'|] eqn:Hr; [|discriminate].
      injection H as <-. simpl. specialize (IH r' eq_refl). lia.
    + specialize (IH r H). simpl. lia.
Qed.


Lemma open_saved_store (E : Embedder) (s : VectorDB) (dk : Disk) :
  io_fault dk = None -> dimension s = Faiss.d (index s) ->
  open_db E (save_database s dk) = (Ret s, save_database s dk).
Proof.
  intros Hio Hdim. unfold save_database. rewrite Hio.
  destruct s as [dim ix ts]. simpl in *. subst dim. reflexivity.
Qed.

Lemma faiss_add_dim (ix ix' : IndexFlatL2) (x : list (list Z)) :
  Faiss.add ix x = Ret ix' -> Faiss.d ix' = Faiss.d ix.
Proof.
  unfold Faiss.add. destruct (forallb _ x); [|discriminate].
  intro H; injection H as <-. reflexivity.
Qed.

Lemma initialize_result (E : Embedder) (dk dk' : Disk) (s : VectorDB) :
  initialize_database E dk = (Ret s, dk') ->
  dimension s = Faiss.d (index s) /\ dk' = save_database s dk.
Proof.
  unfold initialize_database, initialize_texts.
  destruct (f_pt dk) as [[|m]|]; [discriminate| |].
  - destruct (Faiss.add (mkIndex (emb_dim E) []) m) as [ix|e] eqn:Hadd; [|discriminate].
    apply faiss_add_dim in Hadd. simpl in Hadd.
    destruct (f_json dk) as [[|ts]|]; intro H; try discriminate;
      injection H as <- <-; simpl; auto.
  - destruct (f_json dk) as [[|ts]|]; intro H; try discriminate;
      injection H as <- <-; simpl; auto.
Qed.

Lemma dict_get_identity (m : list (string * string)) (key default : string) :
  Forall (fun p => fst p = snd p) m ->
  (In key (map fst m) -> dict_get m key default = key) /\
  (~ In key (map fst m) -> dict_get m key default = default).
Proof.
  induction m as [|[k v] m IH]; intro Hm; simpl.
  - split; [contradiction|reflexivity].
  - inversion Hm as [|? ? Hkv Hrest]; subst. simpl in Hkv. subst v.
    destruct (IH Hrest) as [IHin IHout].
    destruct (String.eqb_spec k key) as [<-|Hne]; split; intro H.
    + reflexivity.
    + exfalso. apply H. left. reflexivity.
    + destruct H as [H|H]; [contradiction|]. apply IHin. exact H.
    + apply IHout. intro H'. apply H. right. exact H'.
Qed.

Lemma string_append_empty (s : string) : String.append s "" = s.
Proof. induction s as [|c s IH]; simpl; [reflexivity|rewrite IH; reflexivity]. Qed.

Lemma map_snd_combine_eq {A B} (l : list A) (l' : list B) :
  length l = length l' -> map snd (combine l l') = l'.
Proof.
  revert l'; induction l as [|a l IH]; intros [|b l'] H; simpl in *;
    try discriminate; [reflexivity|].
  rewrite IH by lia. reflexivity.
Qed.

Lemma string_prefix_append (s t : string) : String.prefix s (String.append s t) = true.
Proof.
  induction s as [|c s IH]; simpl.
  - destruct t; reflexivity.
  - destruct (ascii_dec c c); [exact IH|contradiction].
Qed.

Lemma join_head_prefix (sep x : string) (rest : list string) :
  String.prefix x (join sep (x :: rest)) = true.
Proof.
  destruct rest as [|y rest].
  - simpl. rewrite <- (string_append_empty x) at 2. apply string_prefix_append.
  - change (join sep (x :: y :: rest)) with (String.append x (String.append sep (join sep (y :: rest)))).
    apply string_prefix_append.
Qed.

Lemma NoDup_map_on {A B} (f : A -> B) (l : list A) :
  NoDup l -> (forall x y, In x l -> In y l -> f x = f y -> x = y) -> NoDup (map f l).
Proof.
  induction l as [|a l IH]; intros Hnd Hinj; simpl; [constructor|].
  inversion Hnd as [|? ? Hna Hl]; subst. constructor.
  - intro Hin. apply in_map_iff in Hin. destruct Hin as [b [Hb Hbl]].
    assert (b = a) by (apply Hinj; [right; exact Hbl|left; reflexivity|exact Hb]).
    subst b. contradiction.
  - apply IH; [exact Hl|]. intros x y Hx Hy. apply Hinj; right; assumption.
Qed.

Lemma all_hits_labels (ix : IndexFlatL2) (q : list Z) :
  map snd (Faiss.all_hits ix q) = seq 0 (Faiss.ntotal ix).
Proof.
  unfold Faiss.all_hits. apply map_snd_combine_eq. rewrite length_map, length_seq.
  reflexivity.
Qed.

(** ** Search *)

(** On a coherent store, with a query embedding of the index dimension and
    a positive [limit], [search] returns the texts of the
    [min(limit, len(texts))] nearest vectors, nearest first. *)
Theorem search_nearest_k (E : Embedder) (st : VectorDB) (q : string) (limit : Z) :
  coherent st -> length (encode E q) = Faiss.d (index st) -> (0 < limit)%Z ->
  search E st q limit =
    map (fun h => nth (snd h) (texts st) "")
        (firstn (Nat.min (Z.to_nat limit) (length (texts st)))
                (Faiss.sort_hits (Faiss.all_hits (index st) (encode E q)))).
Proof.
  intros Hc Hq Hlim. unfold search.
  destruct (texts st) as [|t0 ts0] eqn:Ht.
  - rewrite Nat.min_0_r. reflexivity.
  - unfold search_block. rewrite Ht.
    unfold coherent in Hc. rewrite Ht in Hc.
    set (k := Nat.min (Z.to_nat limit) (length (t0 :: ts0))).
    replace (Z.min limit (Z.of_nat (length (t0 :: ts0)))) with (Z.of_nat k)
      by (unfold k; simpl length in *; lia).
    rewrite search_top_labels by (try exact Hq; unfold k; simpl length in *; lia).
    rewrite lookup_texts_positions; [reflexivity|].
    apply Forall_forall. intros h Hh.
    apply in_firstn_gen in Hh.
    apply (Permutation_in _ (FaissFacts.sort_hits_perm _)) in Hh.
    apply FaissFacts.all_hits_in_range in Hh. rewrite <- Hc. exact Hh.
Qed.

Lemma search_nearest_k_witness :
  search laptop_phone_embedder
    (mkDB 2 (mkIndex 2 [[10; 0]; [0; 10]]%Z) ["a laptop review"; "a phone review"])
    "laptop" 1 =
  map (fun h => nth (snd h) ["a laptop review"; "a phone review"] "")
      (firstn (Nat.min (Z.to_nat 1) 2)
              (Faiss.sort_hits (Faiss.all_hits (mkIndex 2 [[10; 0]; [0; 10]]%Z) [10; 1]%Z))).
Proof.
  apply (search_nearest_k laptop_phone_embedder
           (mkDB 2 (mkIndex 2 [[10; 0]; [0; 10]]%Z) ["a laptop review"; "a phone review"])
           "laptop" 1); reflexivity.
Defined.

(** In every store state, [search] returns at most [len(texts)] results and
    at most [limit] results (none for a non-positive [limit]). *)
Theorem search_result_count (E : Embedder) (st : VectorDB) (q : string) (limit : Z) :
  (length (search E st q limit) <= length (texts st))%nat /\
  (Z.of_nat (length (search E st q limit)) <= Z.max 0 limit)%Z.
Proof.
  unfold search.
  destruct (texts st) as [|t0 ts0] eqn:Ht; [simpl; lia|].
  unfold search_block. rewrite Ht.
  destruct (Faiss.search (index st) (encode E q) _) as [idxs|e] eqn:Hs; [|simpl; lia].
  destruct (lookup_texts (t0 :: ts0) idxs) as [r|e] eqn:Hr; [|simpl; lia].
  apply lookup_texts_length in Hr. apply faiss_search_length in Hs.
  destruct Hs as [Hlen Hk]. simpl length in *. lia.
Qed.

(** [search] returns [[]] when [limit <= 0] (FAISS refuses [k <= 0]) or when
    the query embedding does not have the index dimension: the exception is
    caught. *)
Theorem search_degenerate_empty (E : Embedder) (st : VectorDB) (q : string) (limit : Z) :
  ((limit <= 0)%Z \/ length (encode E q) <> Faiss.d (index st)) ->
  search E st q limit = [].
Proof.
  intro H. unfold search.
  destruct (texts st) as [|t0 ts0] eqn:Ht; [reflexivity|].
  unfold search_block, Faiss.search. rewrite Ht.
  destruct (Nat.eqb (length (encode E q)) (Faiss.d (index st))) eqn:Heq;
    cbn [negb]; [|reflexivity].
  apply Nat.eqb_eq in Heq. destruct H as [H|H]; [|contradiction].
  replace (Z.min limit (Z.of_nat (length (t0 :: ts0))) <=? 0)%Z with true
    by (symmetry; apply Z.leb_le; lia).
  reflexivity.
Qed.

Lemma search_degenerate_empty_witness :
  search laptop_phone_embedder
    (mkDB 2 (mkIndex 2 [[10; 0]]%Z) ["a laptop review"]) "laptop" 0 = [].
Proof. apply search_degenerate_empty. left. lia. Defined.

(** On a coherent store whose texts are pairwise distinct, [search] never
    returns the same text twice. *)
Theorem search_no_repeats (E : Embedder) (st : VectorDB) (q : string) (limit : Z) :
  coherent st -> length (encode E q) = Faiss.d (index st) -> NoDup (texts st) ->
  NoDup (search E st q limit).
Proof.
  intros Hc Hq Hnd.
  destruct (Z.leb_spec limit 0).
  - rewrite search_degenerate_empty by (left; exact H). constructor.
  - rewrite (search_nearest_k E st q limit Hc Hq) by lia.
    set (hs := firstn _ (Faiss.sort_hits (Faiss.all_hits (index st) (encode E q)))).
    assert (Hrange : forall h, In h hs -> (snd h < length (texts st))%nat).
    { intros h Hh. apply in_firstn_gen in Hh.
      apply (Permutation_in _ (FaissFacts.sort_hits_perm _)) in Hh.
      apply FaissFacts.all_hits_in_range in Hh. rewrite <- Hc. exact Hh. }
    assert (Hlab : NoDup (map snd hs)).
    { unfold hs. rewrite <- firstn_map. apply NoDup_firstn_gen.
      apply (Permutation_NoDup (Permutation_map snd (Permutation_sym (FaissFacts.sort_hits_perm _)))).
      rewrite all_hits_labels. apply seq_NoDup. }
    replace (map (fun h => nth (snd h) (texts st) "") hs)
      with (map (fun i => nth i (texts st) "") (map snd hs))
      by (rewrite map_map; reflexivity).
    apply NoDup_map_on; [exact Hlab|].
    intros i j Hi Hj Heq.
    apply in_map_iff in Hi, Hj.
    destruct Hi as [hi [<- Hhi]], Hj as [hj [<- Hhj]].
    apply (proj1 (NoDup_nth (texts st) "") Hnd); auto.
Qed.

Lemma search_no_repeats_witness :
  NoDup (search laptop_phone_embedder
           (mkDB 2 (mkIndex 2 [[10; 0]; [0; 10]]%Z) ["a laptop review"; "a phone review"])
           "laptop" 5).
Proof.
  apply search_no_repeats; [reflexivity|reflexivity|].
  repeat constructor; simpl; intuition discriminate.
Defined.

(** ** Adding, saving and reopening *)



(** When the directory accepts writes, reopening the directory an open just
    used returns the same store and leaves the directory as it is. *)
Theorem reopen_same_store (E : Embedder) (dk dk' : Disk) (s : VectorDB) :
  io_fault dk = None -> open_db E dk = (Ret s, dk') -> open_db E dk' = (Ret s, dk').
Proof.
  intros Hio Hopen.
  assert (Hinit : initialize_database E dk = (Ret s, dk') -> open_db E dk' = (Ret s, dk')).
  { intro Hi. destruct (initialize_result E dk dk' s Hi) as [Hdim ->].
    apply open_saved_store; assumption. }
  unfold open_db, load_database in Hopen.
  destruct (f_index dk) as [[|ix]|] eqn:Hfi; destruct (f_data dk) as [[|ts]|] eqn:Hfd;
    try (apply Hinit; exact Hopen).
  injection Hopen as <- <-. unfold open_db, load_database.
  rewrite Hfi, Hfd. reflexivity.
Qed.

Lemma reopen_same_store_witness :
  open_db laptop_phone_embedder (snd (open_db laptop_phone_embedder mismatched_seed_dir)) =
  (Ret (mkDB 2 (mkIndex 2 [[10; 0]; [0; 10]]%Z) ["a laptop review"]),
   snd (open_db laptop_phone_embedder mismatched_seed_dir)).
Proof.
  apply (reopen_same_store laptop_phone_embedder mismatched_seed_dir); reflexivity.
Defined.

(** When the directory accepts writes, a successful [add_texts] is durable:
    reopening the directory returns the store as [add_texts] left it in
    memory. *)
Theorem add_then_reopen (E : Embedder) (st : VectorDB) (dk : Disk) (ts : list string) :
  io_fault dk = None -> ts <> [] ->
  Forall (fun t => length (encode E t) = Faiss.d (index st)) ts ->
  dimension st = Faiss.d (index st) ->
  let r := add_texts E st dk ts in
  open_db E (snd r) = (Ret (snd (fst r)), snd r).
Proof.
  intros Hio Hne Hdim Hd r. unfold r.
  rewrite add_texts_no_rollback by assumption. cbn [fst snd].
  apply open_saved_store; [exact Hio|exact Hd].
Qed.

Lemma add_then_reopen_witness :
  open_db laptop_phone_embedder
    (snd (add_texts laptop_phone_embedder (mkDB 2 (mkIndex 2 []) []) empty_dir
            ["a laptop review"])) =
  (Ret (snd (fst (add_texts laptop_phone_embedder (mkDB 2 (mkIndex 2 []) []) empty_dir
                    ["a laptop review"]))),
   snd (add_texts laptop_phone_embedder (mkDB 2 (mkIndex 2 []) []) empty_dir
          ["a laptop review"])).
Proof.
  apply add_then_reopen; [reflexivity|discriminate|repeat constructor|reflexivity].
Defined.

(** ** Fusion *)

(** For a non-empty audience whose combined results hold at most 100
    distinct strings, [_fetch_relevant_data] keeps exactly the strings found
    by the vector search or the keyword search: nothing is dropped and
    nothing is added. *)
Theorem fetch_keeps_all_results
    (vector_search : string -> Z -> list string) (keyword_search : string -> list string)
    (set_list : list string -> list string) (a : string) :
  set_list_ok set_list -> a <> "" ->
  length (set_list (vector_search a 50%Z ++ keyword_search a)) <= 100 ->
  forall x, In x (snd (fetch_relevant_data vector_search keyword_search set_list (Some a))) <->
            In x (vector_search a 50%Z) \/ In x (keyword_search a).
Proof.
  intros Hset Hne Hlen x.
  destruct a as [|c a']; [contradiction|].
  change (snd (fetch_relevant_data vector_search keyword_search set_list (Some (String c a'))))
    with (firstn 100 (set_list (vector_search (String c a') 50%Z ++
                                keyword_search (String c a')))).
  rewrite firstn_all2 by exact Hlen.
  rewrite (proj2 (Hset _) x). apply in_app_iff.
Qed.

Lemma fetch_keeps_all_results_witness :
  In "review X" (snd (fetch_relevant_data (fun _ _ => ["review Y"; "review Z"])
                        (fun _ => ["review X"; "review Y"]) first_occurrence_set_list
                        (Some "laptop"))) <->
  In "review X" ["review Y"; "review Z"] \/ In "review X" ["review X"; "review Y"].
Proof.
  apply fetch_keeps_all_results;
    [exact first_occurrence_set_list_ok | discriminate | simpl; lia].
Defined.

(** ** Routing *)

(** Whatever the LLM answers, [_determine_agent_type] returns one of the
    nine agent keys: the normalised answer ([strip] then [lower]) when it is
    a key, ["demographics"] otherwise. *)
Theorem determine_agent_type_total (py_strip py_lower : string -> string)
    (llm_response : string) :
  let category := py_lower (py_strip llm_response) in
  In (determine_agent_type py_strip py_lower llm_response) (map fst agent_mapping) /\
  (In category (map fst agent_mapping) ->
     determine_agent_type py_strip py_lower llm_response = category) /\
  (~ In category (map fst agent_mapping) ->
     determine_agent_type py_strip py_lower llm_response = "demographics").
Proof.
  intro category.
  assert (Hid : Forall (fun p => fst p = snd p) agent_mapping) by repeat constructor.
  destruct (dict_get_identity agent_mapping category "demographics" Hid) as [Hin Hout].
  unfold determine_agent_type. fold category.
  split; [|split; assumption].
  destruct (in_dec string_dec category (map fst agent_mapping)) as [H|H].
  - rewrite Hin by exact H. exact H.
  - rewrite Hout by exact H. left. reflexivity.
Qed.

(** ** Recommendation text *)

(** [_generate_specific_recommendations] always yields at least one
    recommendation, and each one starts with a bullet ["•"] or a dash. *)
Theorem bullet_points_well_formed (py_strip : string -> string) (response : string) :
  extract_bullet_points py_strip response <> [] /\
  Forall (fun line => String.prefix bullet line = true \/ String.prefix "-" line = true)
         (extract_bullet_points py_strip response).
Proof.
  unfold extract_bullet_points.
  destruct (filter _ _) as [|b bs] eqn:Hf.
  - split; [discriminate|]. constructor; [|constructor].
    left. apply (string_prefix_append bullet (String.append " " (py_strip response))).
  - split; [discriminate|]. rewrite <- Hf.
    apply Forall_forall. intros line Hl. apply filter_In in Hl.
    destruct Hl as [_ Hl]. apply orb_true_iff in Hl. exact Hl.
Qed.

(** [format_row_as_review] starts with ["Reviewer: v"], where [v] is the
    first non-NaN value among the [reviewer], [name], [user] and [author]
    fields, when that value is truthy. *)
Theorem format_row_reviewer_first (row : Row) (dt : dtype) (v : string) :
  first_present name_fields row = Some (dt, v) -> truthy dt v = true ->
  String.prefix (String.append "Reviewer: " v) (format_row_as_review row) = true.
Proof.
  intros Hfp Htr. unfold format_row_as_review. rewrite Hfp, Htr.
  apply join_head_prefix.
Qed.

Lemma format_row_reviewer_first_witness :
  String.prefix (String.append "Reviewer: " "bob")
    (format_row_as_review [(("name", Obj), Some "bob"); (("stars", Num), Some "5")]) = true.
Proof. apply (format_row_reviewer_first _ Obj); reflexivity. Defined.
